(** * APIFuzzer: the command-line driver [fuzzer.py]

    A shallow embedding of [src/fuzzer.py]: the [Fuzzer] class
    ([__init__], [prepare], [run]), the [signal_handler] and the body of
    the [__main__] block, written in a small trace-and-exception monad.

    The template generator, the request sender, the logger and the kitty
    fuzzing engine live in other modules; they enter the development as
    the fields of the [Collaborators] class. *)

From Stdlib Require Import List Ascii String ZArith Bool Lia.
Import ListNotations.
Local Open Scope string_scope.
Local Open Scope Z_scope.
Local Open Scope list_scope.
Set Warnings "-register-all".

(** ** Python values *)

(** What [json.loads] can return, plus [None].  A finite float is kept
    as mantissa and binary exponent; only its being zero matters here. *)
Inductive pyval : Type :=
| PNone
| PBool (b : bool)
| PInt (n : Z)
| PFloat (mantissa exponent : Z)
| PNaN
| PInf (negative : bool)
| PStr (s : string)
| PList (items : list pyval)
| PDict (items : list (string * pyval)).

(** Python's truth value testing, as used by [x if x else y] and [if x:]. *)
Definition truthy (v : pyval) : bool :=
  match v with
  | PNone => false
  | PBool b => b
  | PInt n => negb (n =? 0)
  | PFloat m _ => negb (m =? 0)
  | PNaN => true
  | PInf _ => true
  | PStr s => negb (String.eqb s "")
  | PList l => match l with [] => false | _ :: _ => true end
  | PDict l => match l with [] => false | _ :: _ => true end
  end.

(** An optional [str] argument of argparse is [None] when the option is
    absent and the given string otherwise. *)
Definition py_of_arg (o : option string) : pyval :=
  match o with
  | None => PNone
  | Some s => PStr s
  end.

(** [if args.x:] takes its branch for a non-empty string only;
    [arg_given] returns that string. *)
Definition arg_given (o : option string) : option string :=
  if truthy (py_of_arg o) then o else None.

(** ** Exceptions and results *)

Inductive exn : Type :=
| SystemExit (code : option Z)      (* [sys.exit(n)]; [exit()] gives [None] *)
| KeyboardInterrupt                 (* SIGINT with Python's default handler *)
| TypeError                         (* iterating over [None] *)
| Raised (kind : string).           (* an exception raised by a collaborator *)

Inductive result (A : Type) : Type :=
| Ok (a : A)
| Raise (e : exn).
Arguments Ok {A} a.
Arguments Raise {A} e.

(** The status the operating system sees when the interpreter ends:
    zero when the script runs to its end, the low byte of the code of a
    [SystemExit] (zero for [None]), 130 for an uncaught
    KeyboardInterrupt and 1 for any other uncaught exception. *)
Definition exit_status {A : Type} (r : result A) : Z :=
  match r with
  | Ok _ => 0
  | Raise (SystemExit None) => 0
  | Raise (SystemExit (Some n)) => Z.land n 255
  | Raise KeyboardInterrupt => 130
  | Raise TypeError => 1
  | Raise (Raised _) => 1
  end.

(** ** Command-line arguments *)

Module Args.

(** The namespace returned by [parser.parse_args()]. *)
Record t : Type := mk {
  src_file : option string;
  src_url : option string;
  report_dir : string;
  level : Z;
  alternate_url : option string;
  test_result_dst : option string;
  log_level : string;
  basic_output : bool;
  headers : pyval
}.

(** The [default=] of every [add_argument]; [mkdtemp] stands for the
    directory [tempfile.mkdtemp()] created. *)
Definition defaults (mkdtemp : string) : t :=
  {| src_file := None;
     src_url := None;
     report_dir := mkdtemp;
     level := 1;
     alternate_url := None;
     test_result_dst := None;
     log_level := "warning";
     basic_output := false;
     headers := PNone |}.

(** The same command line with [--level n]. *)
Definition with_level (a : t) (n : Z) : t :=
  {| src_file := src_file a;
     src_url := src_url a;
     report_dir := report_dir a;
     level := n;
     alternate_url := alternate_url a;
     test_result_dst := test_result_dst a;
     log_level := log_level a;
     basic_output := basic_output a;
     headers := headers a |}.

End Args.

(** ** The request sender's constructor arguments *)

Module FuzzerTarget.

(** [FuzzerTarget(name=, base_url=, report_dir=, auth_headers=)]. *)
Record t : Type := mk {
  name : string;
  base_url : option string;
  report_dir : string;
  auth_headers : pyval
}.

End FuzzerTarget.

(** ** Observable events *)

(** What the fuzzing engine does once started. *)
Inductive engine_event : Type :=
| Mutation (field : string) (value : pyval)
| RequestSent (id : nat)
| ResponseReceived (id : nat)
| FindingSaved (id : nat).

Section Program.

Context {Template Compiled Logger : Type}.

Inductive event : Type :=
| EvReadFile (path : string)
| EvFetchUrl (url dst : string)
| EvLogInfo (msg : string)
| EvSignal
| EvTarget (target : FuzzerTarget.t)
| EvInterface
| EvConnect (c : Compiled)
| EvStart (model : list Compiled) (target : FuzzerTarget.t)
| EvEngine (e : engine_event).

(** *** The trace-and-exception monad *)

Definition M (A : Type) : Type := (list event * result A)%type.

Definition ret {A : Type} (a : A) : M A := ([], Ok a).

Definition bind {A B : Type} (m : M A) (f : A -> M B) : M B :=
  match m with
  | (tr, Ok a) => let (tr', r) := f a in (tr ++ tr', r)
  | (tr, Raise e) => (tr, Raise e)
  end.

Definition emit (e : event) : M unit := ([e], Ok tt).

Definition raise {A : Type} (e : exn) : M A := ([], Raise e).

Definition lift {A : Type} (r : result A) : M A := ([], r).

Definition trace {A : Type} (m : M A) : list event := fst m.

Definition outcome {A : Type} (m : M A) : result A := snd m.

Notation "x <- c ;; k" := (bind c (fun x => k))
  (at level 100, c at next level, right associativity).
Notation "c ;;; k" := (bind c (fun _ => k))
  (at level 100, right associativity).

(** *** Collaborators *)

(** Code imported by [fuzzer.py] from other modules. *)
Class Collaborators : Type := {
  (* apifuzzer.utils *)
  get_api_definition_from_file : string -> result pyval;
  save_api_definition : string -> string -> result pyval;
  set_logger : string -> bool -> Logger;
  (* tempfile.mktemp() *)
  mktemp : string;
  (* SwaggerTemplateGenerator(api, logger).process_api_resources(),
     then its [templates] attribute *)
  process_api_resources : pyval -> result (list Template);
  (* the server or host the definition declares, if any *)
  declared_server : pyval -> option string;
  (* template.compile_template() *)
  compile_template : Template -> result Compiled;
  (* OpenApiServerFuzzer.start() on a model and a target: what the
     engine does, and how [start] returns *)
  fuzz_session :
    list Compiled -> FuzzerTarget.t -> list engine_event * result unit
}.

Context {collab : Collaborators}.

(** Modelled from the spec: [SwaggerTemplateGenerator.compile_base_url]
    is not part of [fuzzer.py].  Given the server declared in the
    definition and the operator's override, it produces the target of
    the requests; the override takes precedence when both are present. *)
Definition compile_base_url (api : pyval) (alternate_url : option string)
  : option string :=
  match alternate_url with
  | Some u => Some u
  | None => declared_server api
  end.

(** *** class Fuzzer *)

Record Fuzzer : Type := mkFuzzer {
  api_resources : pyval;
  base_url : option string;
  alternate_url : option string;
  templates : option (list Template);
  test_level : Z;
  report_dir : string;
  test_result_dst : option string;
  auth_headers : pyval;
  logger : Logger
}.

(** [Fuzzer.__init__] *)
Definition __init__ (api_resources : pyval) (report_dir : string)
    (test_level : Z) (log_level : string) (basic_output : bool)
    (alternate_url test_result_dst : option string)
    (auth_headers : pyval) : M Fuzzer :=
  let self :=
    {| api_resources := api_resources;
       base_url := None;
       alternate_url := alternate_url;
       templates := None;
       test_level := test_level;
       report_dir := report_dir;
       test_result_dst := test_result_dst;
       auth_headers := if truthy auth_headers then auth_headers else PDict [];
       logger := set_logger log_level basic_output |} in
  emit (EvLogInfo "APIFuzzer initialized") ;;;
  ret self.

(** [Fuzzer.prepare] *)
Definition prepare (self : Fuzzer) : M Fuzzer :=
  ts <- lift (process_api_resources (api_resources self)) ;;
  ret {| api_resources := api_resources self;
         base_url := compile_base_url (api_resources self) (alternate_url self);
         alternate_url := alternate_url self;
         templates := Some ts;
         test_level := test_level self;
         report_dir := report_dir self;
         test_result_dst := test_result_dst self;
         auth_headers := auth_headers self;
         logger := logger self |}.

(** The graph model, seen as the templates connected to its root. *)
Definition GraphModel : Type := list Compiled.

Definition connect (model : GraphModel) (c : Compiled) : GraphModel :=
  model ++ [c].

(** The loop [for template in self.templates: model.connect(...)]. *)
Fixpoint connect_all (ts : list Template) (model : GraphModel) : M GraphModel :=
  match ts with
  | [] => ret model
  | t :: rest =>
      c <- lift (compile_template t) ;;
      emit (EvConnect c) ;;;
      connect_all rest (connect model c)
  end.

(** [cs] are the compiled forms of [ts], one for one and in order. *)
Definition compiles_to (ts : list Template) (cs : list Compiled) : Prop :=
  Forall2 (fun t c => compile_template t = Ok c) ts cs.

(** [fuzzer.start()], after [set_model], [set_target], [set_interface]. *)
Definition start (model : GraphModel) (target : FuzzerTarget.t) : M unit :=
  let (evs, r) := fuzz_session model target in
  (map EvEngine evs, r).

(** The [FuzzerTarget] built on the first line of [run]. *)
Definition target_of (self : Fuzzer) : FuzzerTarget.t :=
  {| FuzzerTarget.name := "target";
     FuzzerTarget.base_url := base_url self;
     FuzzerTarget.report_dir := report_dir self;
     FuzzerTarget.auth_headers := auth_headers self |}.

(** [Fuzzer.run] *)
Definition run (self : Fuzzer) : M unit :=
  let target := target_of self in
  emit (EvTarget target) ;;;
  emit EvInterface ;;;
  model <- match templates self with
           | Some ts => connect_all ts []
           | None => raise TypeError
           end ;;
  emit (EvStart model target) ;;;
  start model target.

(** *** The main block *)

(** [signal_handler(sig, frame)] *)
Definition signal_handler : M unit := raise (SystemExit (Some 0)).

(** Lines 138 to 145: where the API definition comes from. *)
Definition load_definition (args : Args.t) : M pyval :=
  match arg_given (Args.src_file args) with
  | Some path =>
      emit (EvReadFile path) ;;;
      lift (get_api_definition_from_file path)
  | None =>
      match arg_given (Args.src_url args) with
      | Some url =>
          emit (EvFetchUrl url mktemp) ;;;
          lift (save_api_definition url mktemp)
      | None =>
          (* the ArgumentTypeError is built and dropped, then [exit()] *)
          raise (SystemExit None)
      end
  end.

(** Lines 146 to 157. *)
Definition fuzz (args : Args.t) (api_definition_json : pyval) : M unit :=
  prog <- __init__ api_definition_json (Args.report_dir args)
            (Args.level args) (Args.log_level args)
            (Args.basic_output args) (Args.alternate_url args)
            (Args.test_result_dst args) (Args.headers args) ;;
  prog <- prepare prog ;;
  emit EvSignal ;;;
  run prog.

(** Lines 138 to 157. *)
Definition main (args : Args.t) : M unit :=
  api_definition_json <- load_definition args ;;
  fuzz args api_definition_json.

(** *** Interrupts *)

Definition is_signal (e : event) : bool :=
  match e with EvSignal => true | _ => false end.

(** Has [signal.signal(signal.SIGINT, signal_handler)] run? *)
Definition handler_installed (tr : list event) : bool :=
  existsb is_signal tr.

(** SIGINT arriving after the first [k] events of an execution: the
    installed handler runs at that point in the main thread and the
    program resumes if it returns; without a handler Python raises
    KeyboardInterrupt.  A signal after the process has ended changes
    nothing. *)
Definition deliver_sigint {A : Type} (k : nat) (p : M A) : M A :=
  if (k <=? List.length (trace p))%nat then
    let pre := firstn k (trace p) in
    let resume := (skipn k (trace p), outcome p) in
    if handler_installed pre then
      bind (pre, Ok tt) (fun _ => bind signal_handler (fun _ => resume))
    else (pre, Raise KeyboardInterrupt)
  else p.

(** *** Observations on a trace *)

(** The templates connected to the model, in order. *)
Definition connected (tr : list event) : list Compiled :=
  flat_map (fun e => match e with EvConnect c => [c] | _ => [] end) tr.

(** The requests the engine dispatched, in order. *)
Definition requests (tr : list event) : list nat :=
  flat_map (fun e => match e with EvEngine (RequestSent i) => [i] | _ => [] end) tr.


(** The values the engine generated for one field, in order. *)
Definition candidates (field : string) (tr : list event) : list pyval :=
  flat_map (fun e => match e with
                     | EvEngine (Mutation f v) =>
                         if String.eqb f field then [v] else []
                     | _ => []
                     end) tr.

(** Anything the request sender or the engine does. *)
Definition is_target_activity (e : event) : bool :=
  match e with
  | EvTarget _ | EvStart _ _ | EvEngine _ => true
  | _ => false
  end.

(** Anything that touches the network: the download of the definition
    and the engine's requests. *)
Definition is_network (e : event) : bool :=
  match e with
  | EvFetchUrl _ _ | EvEngine (RequestSent _) => true
  | _ => false
  end.

(** *** The specification's wording, for comparison *)


(** Every template that compiles ends up connected to the model. *)
Definition each_template_connected (self : Fuzzer) : Prop :=
  forall ts t c,
    templates self = Some ts ->
    In t ts ->
    compile_template t = Ok c ->
    In c (connected (trace (run self))).

(** The level bounds how many candidates a field gets: there are two
    levels at which the numbers differ. *)
Definition level_bounds_candidates (args : Args.t) (field : string) : Prop :=
  exists n m : Z,
    List.length (candidates field (trace (main (Args.with_level args n))))
    <> List.length (candidates field (trace (main (Args.with_level args m)))).

(** With both a file argument and a URL argument on the command line,
    nothing is downloaded. *)
Definition file_given_means_no_download (args : Args.t) : Prop :=
  forall path url,
    Args.src_file args = Some path ->
    Args.src_url args = Some url ->
    forall u d, ~ In (EvFetchUrl u d) (trace (main args)).

End Program.

Arguments event : clear implicits.
Arguments M : clear implicits.
Arguments Collaborators : clear implicits.
Arguments Fuzzer : clear implicits.

(** ** [str2bool]

    The [type=] of [--basic_output].  Strings are byte strings, and
    [lower] changes the letters A to Z only: the words [str2bool]
    accepts are ASCII, and no character outside ASCII lowers to one of
    their letters, so the result is that of [str.lower]. *)

Definition lower_char (c : Ascii.ascii) : Ascii.ascii :=
  let n := Ascii.nat_of_ascii c in
  if ((65 <=? n) && (n <=? 90))%nat then Ascii.ascii_of_nat (n + 32) else c.

(** [v.lower()] *)
Fixpoint lower (s : string) : string :=
  match s with
  | EmptyString => EmptyString
  | String c rest => String (lower_char c) (lower rest)
  end.

(** [x in (a, b, ...)] on strings. *)
Definition str_in (x : string) (words : list string) : bool :=
  existsb (String.eqb x) words.

(** [str2bool(v)]; a value that is neither a [bool] nor a [str] has no
    [lower] method. *)
Definition str2bool (v : pyval) : result bool :=
  match v with
  | PBool b => Ok b
  | PStr s =>
      if str_in (lower s) ["yes"; "true"; "t"; "y"; "1"; "True"; "T"] then
        Ok true
      else if str_in (lower s) ["no"; "false"; "f"; "n"; "0"; "False"; "F"] then
        Ok false
      else Raise (Raised "ArgumentTypeError")
  | _ => Raise (Raised "AttributeError")
  end.

(** Two command lines that differ at most in [--level] and
    [--test_report]. *)
Definition same_but_level_and_report (a b : Args.t) : Prop :=
  Args.src_file a = Args.src_file b /\
  Args.src_url a = Args.src_url b /\
  Args.report_dir a = Args.report_dir b /\
  Args.alternate_url a = Args.alternate_url b /\
  Args.log_level a = Args.log_level b /\
  Args.basic_output a = Args.basic_output b /\
  Args.headers a = Args.headers b.

(** ** A small concrete setting

    Templates and compiled templates are numbers.  One definition file
    declares three operations, another one is malformed; the engine
    tries one value per connected template and saves a report for the
    odd ones. *)

Module Demo.

Definition good_api : pyval :=
  PDict [("host", PStr "declared.example"); ("paths", PDict [("/items", PDict [])])].

Definition broken_api : pyval := PDict [("host", PStr "declared.example")].

Definition read_file (path : string) : result pyval :=
  if String.eqb path "api.json" then Ok good_api
  else if String.eqb path "broken.json" then Ok broken_api
  else Raise (Raised "FileNotFoundError").

Definition download (url dst : string) : result pyval := Ok good_api.

Definition operations (api : pyval) : result (list nat) :=
  match api with
  | PDict (_ :: _ :: _) => Ok [0; 1; 2]%nat
  | _ => Raise (Raised "SchemaError")
  end.

Definition host (api : pyval) : option string :=
  match api with
  | PDict (("host", PStr h) :: _) => Some h
  | _ => None
  end.

Definition session (model : list nat) (target : FuzzerTarget.t)
  : list engine_event * result unit :=
  (flat_map (fun c => [Mutation "id" (PInt (Z.of_nat c)); RequestSent c;
                       ResponseReceived c]
                      ++ (if Nat.odd c then [FindingSaved c] else []))
            model,
   Ok tt).

(** Every template compiles. *)
Definition sound : Collaborators nat nat unit :=
  {| get_api_definition_from_file := read_file;
     save_api_definition := download;
     set_logger := fun _ _ => tt;
     mktemp := "/tmp/tmpdef";
     process_api_resources := operations;
     declared_server := host;
     compile_template := fun t => Ok t;
     fuzz_session := session |}.

(** The second template does not compile. *)
Definition flaky : Collaborators nat nat unit :=
  {| get_api_definition_from_file := read_file;
     save_api_definition := download;
     set_logger := fun _ _ => tt;
     mktemp := "/tmp/tmpdef";
     process_api_resources := operations;
     declared_server := host;
     compile_template := fun t =>
       if Nat.eqb t 1 then Raise (Raised "TemplateCompileError") else Ok t;
     fuzz_session := session |}.

(** [fuzzer.py -s api.json] *)
Definition from_file : Args.t :=
  {| Args.src_file := Some "api.json";
     Args.src_url := None;
     Args.report_dir := "/tmp/report";
     Args.level := 1;
     Args.alternate_url := None;
     Args.test_result_dst := None;
     Args.log_level := "warning";
     Args.basic_output := false;
     Args.headers := PNone |}.

(** [fuzzer.py -s api.json --src_url http://api.example/def.json
    -u http://override.example --level 2] *)
Definition both_sources : Args.t :=
  {| Args.src_file := Some "api.json";
     Args.src_url := Some "http://api.example/def.json";
     Args.report_dir := "/tmp/report";
     Args.level := 2;
     Args.alternate_url := Some "http://override.example";
     Args.test_result_dst := None;
     Args.log_level := "warning";
     Args.basic_output := false;
     Args.headers := PNone |}.

(** [fuzzer.py --src_url http://api.example/def.json] *)
Definition from_url : Args.t :=
  {| Args.src_file := None;
     Args.src_url := Some "http://api.example/def.json";
     Args.report_dir := "/tmp/report";
     Args.level := 1;
     Args.alternate_url := None;
     Args.test_result_dst := None;
     Args.log_level := "warning";
     Args.basic_output := false;
     Args.headers := PNone |}.

(** [fuzzer.py -s broken.json] *)
Definition malformed : Args.t :=
  {| Args.src_file := Some "broken.json";
     Args.src_url := None;
     Args.report_dir := "/tmp/report";
     Args.level := 1;
     Args.alternate_url := None;
     Args.test_result_dst := None;
     Args.log_level := "warning";
     Args.basic_output := false;
     Args.headers := PNone |}.

(** [fuzzer.py] with no option at all. *)
Definition no_source : Args.t := Args.defaults "/tmp/tmpreport".

(** The [Fuzzer] of [fuzzer.py -s api.json] after [prepare]. *)
Definition prepared : Fuzzer nat unit :=
  {| api_resources := good_api;
     base_url := Some "declared.example";
     alternate_url := None;
     templates := Some [0; 1; 2]%nat;
     test_level := 1;
     report_dir := "/tmp/report";
     test_result_dst := None;
     auth_headers := PDict [];
     logger := tt |}.

(** The target [main] builds for [both_sources]. *)
Definition overridden_target : FuzzerTarget.t :=
  {| FuzzerTarget.name := "target";
     FuzzerTarget.base_url := Some "http://override.example";
     FuzzerTarget.report_dir := "/tmp/report";
     FuzzerTarget.auth_headers := PDict [] |}.

End Demo.

(** ** More command lines for the concrete setting *)

Module Cases.

(** [fuzzer.py -s missing.json --src_url http://api.example/def.json] *)
Definition unreadable : Args.t :=
  {| Args.src_file := Some "missing.json";
     Args.src_url := Some "http://api.example/def.json";
     Args.report_dir := "/tmp/report";
     Args.level := 1;
     Args.alternate_url := None;
     Args.test_result_dst := None;
     Args.log_level := "warning";
     Args.basic_output := false;
     Args.headers := PNone |}.

(** [fuzzer.py -s '' --src_url http://api.example/def.json] *)
Definition empty_file : Args.t :=
  {| Args.src_file := Some "";
     Args.src_url := Some "http://api.example/def.json";
     Args.report_dir := "/tmp/report";
     Args.level := 1;
     Args.alternate_url := None;
     Args.test_result_dst := None;
     Args.log_level := "warning";
     Args.basic_output := false;
     Args.headers := PNone |}.

(** [fuzzer.py -s api.json --level 7 -t junit.xml
    --headers '[{"Authorization": "SuperSecret"}]'] *)
Definition with_report : Args.t :=
  {| Args.src_file := Some "api.json";
     Args.src_url := None;
     Args.report_dir := "/tmp/report";
     Args.level := 7;
     Args.alternate_url := None;
     Args.test_result_dst := Some "junit.xml";
     Args.log_level := "warning";
     Args.basic_output := false;
     Args.headers := PList [PDict [("Authorization", PStr "SuperSecret")]] |}.

(** The same without [--level] and [-t]. *)
Definition without_report : Args.t :=
  {| Args.src_file := Some "api.json";
     Args.src_url := None;
     Args.report_dir := "/tmp/report";
     Args.level := 1;
     Args.alternate_url := None;
     Args.test_result_dst := None;
     Args.log_level := "warning";
     Args.basic_output := false;
     Args.headers := PList [PDict [("Authorization", PStr "SuperSecret")]] |}.

(** The target [main] builds for [with_report]. *)
Definition list_headers_target : FuzzerTarget.t :=
  {| FuzzerTarget.name := "target";
     FuzzerTarget.base_url := Some "declared.example";
     FuzzerTarget.report_dir := "/tmp/report";
     FuzzerTarget.auth_headers :=
       PList [PDict [("Authorization", PStr "SuperSecret")]] |}.

End Cases.

(** ** Properties *)

Section Properties.

Context {Template Compiled Logger : Type}.
Context {collab : Collaborators Template Compiled Logger}.

(** *** The monad *)

Lemma trace_bind {A B : Type} (m : M Compiled A) (f : A -> M Compiled B) :
  trace (bind m f) =
  trace m ++ match outcome m with
             | Ok a => trace (f a)
             | Raise _ => []
             end.
Proof.
  destruct m as [tr [a | e]]; simpl.
  - destruct (f a); reflexivity.
  - now rewrite app_nil_r.
Qed.

Lemma outcome_bind {A B : Type} (m : M Compiled A) (f : A -> M Compiled B) :
  outcome (bind m f) =
  match outcome m with
  | Ok a => outcome (f a)
  | Raise e => Raise e
  end.
Proof.
  destruct m as [tr [a | e]]; simpl; [destruct (f a) |]; reflexivity.
Qed.

Lemma bind_ret_l {A B : Type} (a : A) (f : A -> M Compiled B) :
  bind (ret a) f = f a.
Proof. unfold bind, ret. now destruct (f a). Qed.

Lemma bind_ret_r {A : Type} (m : M Compiled A) : bind m ret = m.
Proof.
  destruct m as [tr [a | e]]; simpl; trivial. now rewrite app_nil_r.
Qed.

Lemma bind_assoc {A B C : Type} (m : M Compiled A)
    (f : A -> M Compiled B) (g : B -> M Compiled C) :
  bind (bind m f) g = bind m (fun a => bind (f a) g).
Proof.
  destruct m as [tr [a | e]]; simpl; trivial.
  destruct (f a) as [tr1 [b | e]]; simpl; trivial.
  destruct (g b) as [tr2 r]. now rewrite app_assoc.
Qed.

(** *** The loop over the templates *)

Lemma connect_all_ok (ts : list Template) (cs : list Compiled) :
  compiles_to ts cs ->
  forall model, connect_all ts model = (map EvConnect cs, Ok (model ++ cs)).
Proof.
  induction 1 as [| t c ts cs Ht _ IH]; intros model; simpl.
  - now rewrite app_nil_r.
  - rewrite Ht. simpl. rewrite IH. unfold connect.
    now rewrite <- app_assoc.
Qed.

Lemma connect_all_fail (ts1 : list Template) (cs1 : list Compiled)
    (t : Template) (e : exn) (ts2 : list Template) :
  compiles_to ts1 cs1 ->
  compile_template t = Raise e ->
  forall model,
    connect_all (ts1 ++ t :: ts2) model = (map EvConnect cs1, Raise e).
Proof.
  induction 1 as [| t1 c1 ts1 cs1 Ht _ IH]; intros Hfail model; simpl.
  - now rewrite Hfail.
  - rewrite Ht. simpl. now rewrite IH.
Qed.

(** Either every template compiles or there is a first one that fails. *)
Lemma compile_cases (ts : list Template) :
  (exists cs, compiles_to ts cs) \/
  (exists ts1 cs1 t e ts2,
      ts = ts1 ++ t :: ts2 /\ compiles_to ts1 cs1 /\
      compile_template t = Raise e).
Proof.
  induction ts as [| t ts IH].
  - left. exists []. constructor.
  - destruct (compile_template t) as [c | e] eqn:Ht.
    + destruct IH as [[cs Hcs] | (ts1 & cs1 & t' & e & ts2 & -> & H1 & H2)].
      * left. exists (c :: cs). now constructor.
      * right. exists (t :: ts1), (c :: cs1), t', e, ts2.
        repeat split; trivial. now constructor.
    + right. exists [], [], t, e, ts. repeat split; trivial. constructor.
Qed.

Lemma connected_map_connect (cs : list Compiled) :
  connected (map EvConnect cs) = cs.
Proof. induction cs as [| c cs IH]; simpl; congruence. Qed.

Lemma connected_app (tr1 tr2 : list (event Compiled)) :
  connected (tr1 ++ tr2) = connected tr1 ++ connected tr2.
Proof. apply flat_map_app. Qed.

Lemma connected_engine (evs : list engine_event) :
  connected (map (@EvEngine Compiled) evs) = [].
Proof. induction evs as [| e evs IH]; simpl; trivial. Qed.

(** *** [run] *)

Lemma run_ok (self : Fuzzer Template Logger) (ts : list Template)
    (cs : list Compiled) :
  templates self = Some ts ->
  compiles_to ts cs ->
  run self =
  (EvTarget (target_of self) :: EvInterface :: map EvConnect cs
     ++ EvStart cs (target_of self)
     :: map EvEngine (fst (fuzz_session cs (target_of self))),
   snd (fuzz_session cs (target_of self))).
Proof.
  intros Hts Hcs. unfold run. rewrite Hts.
  rewrite (connect_all_ok _ _ Hcs). unfold start. simpl.
  destruct (fuzz_session cs (target_of self)) as [evs r]. reflexivity.
Qed.

Lemma run_fail (self : Fuzzer Template Logger) (ts1 : list Template)
    (cs1 : list Compiled) (t : Template) (e : exn) (ts2 : list Template) :
  templates self = Some (ts1 ++ t :: ts2) ->
  compiles_to ts1 cs1 ->
  compile_template t = Raise e ->
  run self =
  (EvTarget (target_of self) :: EvInterface :: map EvConnect cs1, Raise e).
Proof.
  intros Hts Hcs Hfail. unfold run. rewrite Hts.
  rewrite (connect_all_fail _ _ _ _ _ Hcs Hfail). reflexivity.
Qed.

Lemma run_no_templates (self : Fuzzer Template Logger) :
  templates self = None ->
  run self = ([EvTarget (target_of self); EvInterface], Raise TypeError).
Proof. intros H. unfold run. now rewrite H. Qed.

(** The shape of every trace of [run]: the target, the interface, the
    connections, and then, if the loop ended, the start of the engine
    followed by engine events only. *)
Lemma run_trace_shape (self : Fuzzer Template Logger) :
  exists cs tail,
    trace (run self) =
      EvTarget (target_of self) :: EvInterface :: map EvConnect cs ++ tail /\
    (tail = [] \/
     exists evs, tail = EvStart cs (target_of self) :: map EvEngine evs).
Proof.
  destruct (templates self) as [ts |] eqn:Hts.
  - destruct (compile_cases ts)
      as [[cs Hcs] | (ts1 & cs1 & t & e & ts2 & -> & H1 & H2)].
    + rewrite (run_ok _ _ _ Hts Hcs). simpl. eauto 6.
    + rewrite (run_fail _ _ _ _ _ _ Hts H1 H2). simpl.
      exists cs1, []. rewrite app_nil_r. auto.
  - rewrite (run_no_templates _ Hts). exists [], []. auto.
Qed.

Lemma run_target (self : Fuzzer Template Logger) (t : FuzzerTarget.t) :
  In (EvTarget t) (trace (run self)) -> t = target_of self.
Proof.
  destruct (run_trace_shape self) as (cs & tail & -> & Htail).
  intros [H | [H | H]]; try congruence.
  apply in_app_or in H. destruct H as [H | H].
  - apply in_map_iff in H. destruct H as (c & H & _). discriminate.
  - destruct Htail as [-> | (evs & ->)]; [contradiction |].
    destruct H as [H | H]; [discriminate |].
    apply in_map_iff in H. destruct H as (c & H & _). discriminate.
Qed.

Lemma run_no_fetch (self : Fuzzer Template Logger) (u d : string) :
  ~ In (EvFetchUrl u d) (trace (run self)).
Proof.
  destruct (run_trace_shape self) as (cs & tail & -> & Htail).
  intros [H | [H | H]]; try discriminate.
  apply in_app_or in H. destruct H as [H | H].
  - apply in_map_iff in H. destruct H as (c & H & _). discriminate.
  - destruct Htail as [-> | (evs & ->)]; [contradiction |].
    destruct H as [H | H]; [discriminate |].
    apply in_map_iff in H. destruct H as (c & H & _). discriminate.
Qed.

(** *** The main block *)

Lemma load_definition_cases (args : Args.t) :
  (exists path,
      arg_given (Args.src_file args) = Some path /\
      load_definition args =
        ([EvReadFile path], get_api_definition_from_file path)) \/
  (exists url,
      arg_given (Args.src_file args) = None /\
      arg_given (Args.src_url args) = Some url /\
      load_definition args =
        ([EvFetchUrl url mktemp], save_api_definition url mktemp)) \/
  (arg_given (Args.src_file args) = None /\
   arg_given (Args.src_url args) = None /\
   load_definition args = ([], Raise (SystemExit None))).
Proof.
  unfold load_definition.
  destruct (arg_given (Args.src_file args)) as [path |].
  - left. exists path. auto.
  - destruct (arg_given (Args.src_url args)) as [url |].
    + right. left. exists url. auto.
    + right. right. auto.
Qed.

Lemma fuzz_prepare_fail (args : Args.t) (api : pyval) (e : exn) :
  process_api_resources api = Raise e ->
  fuzz args api = ([EvLogInfo "APIFuzzer initialized"], Raise e).
Proof.
  intros H. unfold fuzz, __init__, prepare. simpl. now rewrite H.
Qed.

Lemma fuzz_prepare_ok (args : Args.t) (api : pyval) (ts : list Template) :
  process_api_resources api = Ok ts ->
  exists self,
    templates self = Some ts /\
    base_url self = compile_base_url api (Args.alternate_url args) /\
    auth_headers self =
      (if truthy (Args.headers args) then Args.headers args else PDict []) /\
    fuzz args api =
      (EvLogInfo "APIFuzzer initialized" :: EvSignal :: trace (run self),
       outcome (run self)).
Proof.
  intros H. unfold fuzz, __init__, prepare. simpl. rewrite H. simpl.
  match goal with
  | |- context [run ?s] => exists s; repeat split; destruct (run s); reflexivity
  end.
Qed.

Lemma main_load_ok (args : Args.t) (tr0 : list (event Compiled)) (api : pyval) :
  load_definition args = (tr0, Ok api) ->
  main args = (tr0 ++ trace (fuzz args api), outcome (fuzz args api)).
Proof.
  intros H. unfold main. rewrite H. simpl. now destruct (fuzz args api).
Qed.

Lemma main_load_fail (args : Args.t) (tr0 : list (event Compiled)) (e : exn) :
  load_definition args = (tr0, Raise e) ->
  main args = (tr0, Raise e).
Proof. intros H. unfold main. now rewrite H. Qed.

(** A target is only ever built from a loaded and prepared definition. *)
Lemma main_target (args : Args.t) (t : FuzzerTarget.t) :
  In (EvTarget t) (trace (main args)) ->
  exists api ts (self : Fuzzer Template Logger),
    outcome (load_definition args) = Ok api /\
    process_api_resources api = Ok ts /\
    base_url self = compile_base_url api (Args.alternate_url args) /\
    auth_headers self =
      (if truthy (Args.headers args) then Args.headers args else PDict []) /\
    t = target_of self.
Proof.
  intros Hin.
  destruct (load_definition args) as [tr0 [api | e]] eqn:Hload.
  - rewrite (main_load_ok _ _ _ Hload) in Hin. simpl in Hin.
    assert (Htr0 : ~ In (EvTarget t) tr0).
    { destruct (load_definition_cases args)
        as [(p & _ & H) | [(u & _ & _ & H) | (_ & _ & H)]];
        rewrite H in Hload; injection Hload as <- _;
        simpl; intuition discriminate. }
    apply in_app_or in Hin. destruct Hin as [Hin | Hin]; [contradiction |].
    destruct (process_api_resources api) as [ts | e] eqn:Hp.
    + destruct (fuzz_prepare_ok args api ts Hp) as (self & _ & Hb & Ha & Hf).
      rewrite Hf in Hin. simpl in Hin.
      destruct Hin as [Hin | [Hin | Hin]]; try discriminate.
      exists api, ts, self. repeat split; trivial.
      now apply run_target.
    + rewrite (fuzz_prepare_fail args api e Hp) in Hin. simpl in Hin.
      destruct Hin as [Hin | []]. discriminate.
  - rewrite (main_load_fail _ _ _ Hload) in Hin. simpl in Hin.
    destruct (load_definition_cases args)
      as [(p & _ & H) | [(u & _ & _ & H) | (_ & _ & H)]];
      rewrite H in Hload; injection Hload as <- _;
      simpl in Hin; intuition discriminate.
Qed.

(** The handler is installed between [prepare] and [run]: an interrupt
    that finds it installed arrives during the run. *)
Lemma handler_installed_during_run (args : Args.t) (k : nat) :
  handler_installed (firstn k (trace (main args))) = true ->
  exists api ts,
    outcome (load_definition args) = Ok api /\
    process_api_resources api = Ok ts.
Proof.
  intros Hh. apply existsb_exists in Hh. destruct Hh as (ev & Hin & Hev).
  destruct ev; try discriminate. clear Hev.
  assert (Hall : In EvSignal (trace (main args))).
  { rewrite <- (firstn_skipn k (trace (main args))).
    apply in_or_app. now left. }
  clear Hin.
  assert (Hload0 : forall tr0 r, load_definition args = (tr0, r) ->
                                 ~ In EvSignal tr0).
  { intros tr0 r Hload.
    destruct (load_definition_cases args)
      as [(p & _ & H) | [(u & _ & _ & H) | (_ & _ & H)]];
      rewrite H in Hload; injection Hload as <- _;
      simpl; intuition discriminate. }
  destruct (load_definition args) as [tr0 [api | e]] eqn:Hload.
  - rewrite (main_load_ok _ _ _ Hload) in Hall. simpl in Hall.
    apply in_app_or in Hall. destruct Hall as [Hall | Hall].
    + now apply (Hload0 _ _ eq_refl) in Hall.
    + destruct (process_api_resources api) as [ts | e] eqn:Hp.
      * exists api, ts. auto.
      * rewrite (fuzz_prepare_fail args api e Hp) in Hall. simpl in Hall.
        destruct Hall as [Hall | []]. discriminate.
  - rewrite (main_load_fail _ _ _ Hload) in Hall. simpl in Hall.
    now apply (Hload0 _ _ eq_refl) in Hall.
Qed.

(** The deepness level is stored by [__init__] and read nowhere. *)
Lemma level_is_not_read (args : Args.t) (n m : Z) :
  main (Args.with_level args n) = main (Args.with_level args m).
Proof.
  unfold main.
  change (load_definition (Args.with_level args n)) with (load_definition args).
  change (load_definition (Args.with_level args m)) with (load_definition args).
  destruct (load_definition args) as [tr0 [api | e]]; simpl; trivial.
  unfold fuzz, __init__, prepare. simpl.
  destruct (process_api_resources api); reflexivity.
Qed.

(** *** Interrupts *)

Lemma deliver_sigint_handled {A : Type} (k : nat) (p : M Compiled A) :
  (k <= List.length (trace p))%nat ->
  handler_installed (firstn k (trace p)) = true ->
  deliver_sigint k p = (firstn k (trace p), Raise (SystemExit (Some 0))).
Proof.
  intros Hk Hh. unfold deliver_sigint.
  apply Nat.leb_le in Hk. rewrite Hk, Hh. simpl.
  now rewrite app_nil_r.
Qed.

(** *** The claims *)


(** C2, as the code has it: the exit status is zero when the run
    completes, and it is zero as well when an interrupt ends the run
    after the handler is installed. *)
Theorem exit_status_zero_on_completion_and_interrupt (args : Args.t) :
  (outcome (main args) = Ok tt -> exit_status (outcome (main args)) = 0) /\
  (forall k,
      (k <= List.length (trace (main args)))%nat ->
      handler_installed (firstn k (trace (main args))) = true ->
      exit_status (outcome (deliver_sigint k (main args))) = 0).
Proof.
  split.
  - intros ->. reflexivity.
  - intros k Hk Hh. now rewrite (deliver_sigint_handled _ _ Hk Hh).
Qed.

(** C3, on the code: with neither a definition file nor a definition
    URL the program ends through [exit()], with nothing printed, no
    event at all and exit status zero. *)
Theorem no_source_exits_with_status_zero (args : Args.t) :
  arg_given (Args.src_file args) = None ->
  arg_given (Args.src_url args) = None ->
  main args = ([], Raise (SystemExit None)) /\
  exit_status (outcome (main args)) = 0.
Proof.
  intros Hf Hu. unfold main, load_definition. rewrite Hf, Hu. auto.
Qed.

(** C4: when the generator rejects the loaded definition, [main] ends
    with that exception right after [__init__]; no target is built, the
    engine is not started and no request is sent.  When the definition
    came from a file the trace has no network event at all. *)
Theorem schema_error_before_any_request (args : Args.t)
    (tr0 : list (event Compiled)) (api : pyval) (e : exn) :
  load_definition args = (tr0, Ok api) ->
  process_api_resources api = Raise e ->
  main args = (tr0 ++ [EvLogInfo "APIFuzzer initialized"], Raise e) /\
  Forall (fun ev => is_target_activity ev = false) (trace (main args)) /\
  requests (trace (main args)) = [] /\
  (forall path,
      arg_given (Args.src_file args) = Some path ->
      Forall (fun ev => is_network ev = false) (trace (main args))).
Proof.
  intros Hload Hp.
  rewrite (main_load_ok _ _ _ Hload), (fuzz_prepare_fail _ _ _ Hp). simpl.
  destruct (load_definition_cases args)
    as [(p & Hf & H) | [(u & Hf & _ & H) | (_ & _ & H)]];
    rewrite H in Hload; injection Hload as <- _; simpl;
    repeat split; repeat constructor; congruence.
Qed.

(** C5, as the code has it: when every template compiles, each one is
    compiled once and connected once, in template order; the model
    handed to the engine is the whole list, and after the start only
    the engine acts.  When a template does not compile, [run] ends with
    its exception after connecting the templates before it: the engine
    is not started and the templates after it are not compiled. *)
Theorem templates_connected_in_order (self : Fuzzer Template Logger)
    (ts : list Template) :
  templates self = Some ts ->
  (forall cs,
      compiles_to ts cs ->
      List.length cs = List.length ts /\
      connected (trace (run self)) = cs /\
      run self =
        (EvTarget (target_of self) :: EvInterface :: map EvConnect cs
           ++ EvStart cs (target_of self)
           :: map EvEngine (fst (fuzz_session cs (target_of self))),
         snd (fuzz_session cs (target_of self)))) /\
  (forall ts1 cs1 t e ts2,
      ts = ts1 ++ t :: ts2 ->
      compiles_to ts1 cs1 ->
      compile_template t = Raise e ->
      run self =
        (EvTarget (target_of self) :: EvInterface :: map EvConnect cs1,
         Raise e)).
Proof.
  intros Hts. split.
  - intros cs Hcs. split; [| split].
    + symmetry. exact (Forall2_length Hcs).
    + rewrite (run_ok _ _ _ Hts Hcs). simpl.
      rewrite connected_app, connected_map_connect. simpl.
      now rewrite connected_engine, app_nil_r.
    + exact (run_ok _ _ _ Hts Hcs).
  - intros ts1 cs1 t e ts2 -> H1 H2. exact (run_fail _ _ _ _ _ _ Hts H1 H2).
Qed.

Lemma candidates_app (field : string) (tr1 tr2 : list (event Compiled)) :
  candidates field (tr1 ++ tr2) = candidates field tr1 ++ candidates field tr2.
Proof. apply flat_map_app. Qed.

Lemma candidates_map_connect (field : string) (cs : list Compiled) :
  candidates field (map EvConnect cs) = [].
Proof. induction cs as [| c cs IH]; simpl; trivial. Qed.

Lemma candidates_load (field : string) (args : Args.t) :
  candidates field (trace (load_definition args)) = [].
Proof.
  destruct (load_definition_cases args)
    as [(p & _ & ->) | [(u & _ & _ & ->) | (_ & _ & ->)]]; reflexivity.
Qed.

(** C6, as the code has it: the level defaults to 1 and [__init__]
    stores it, but nothing reads it.  Whatever two levels are given,
    [main] does the same and every field gets the same candidates, in
    the same order: those of level [N] include those of level [N - 1]
    and are never more.  When the run reaches the engine they are the
    candidates the engine generates from all the compiled templates. *)
Theorem level_is_stored_and_never_read (args : Args.t) (field : string)
    (n m : Z) :
  main (Args.with_level args n) = main (Args.with_level args m) /\
  candidates field (trace (main (Args.with_level args n)))
    = candidates field (trace (main (Args.with_level args m))) /\
  (forall api dir log basic alt dst h (self : Fuzzer Template Logger),
      outcome (__init__ api dir n log basic alt dst h) = Ok self ->
      test_level self = n) /\
  (forall mkdtemp, Args.level (Args.defaults mkdtemp) = 1) /\
  (forall tr0 api ts cs,
      load_definition args = (tr0, Ok api) ->
      process_api_resources api = Ok ts ->
      compiles_to ts cs ->
      exists target,
        candidates field (trace (main (Args.with_level args n)))
          = candidates field
              (map (@EvEngine Compiled) (fst (fuzz_session cs target)))).
Proof.
  split; [apply level_is_not_read |].
  split; [now rewrite (level_is_not_read args n m) |].
  split; [simpl; now intros api dir log basic alt dst h self [= <-] |].
  split; [reflexivity |].
  intros tr0 api ts cs Hload Hp Hcs.
  destruct (fuzz_prepare_ok (Args.with_level args n) api ts Hp)
    as (self & Hts & _ & _ & Hf).
  exists (target_of self).
  rewrite (main_load_ok (Args.with_level args n) tr0 api Hload), Hf.
  rewrite (run_ok _ _ _ Hts Hcs). simpl.
  rewrite candidates_app.
  replace (candidates field tr0) with (@nil pyval)
    by (generalize (candidates_load field args); now rewrite Hload).
  simpl. rewrite candidates_app, candidates_map_connect. reflexivity.
Qed.

(** C8: with an override URL on the command line, [prepare] stores it
    as the base URL whatever the definition declares, and every target
    that [main] builds has it as its base URL. *)
Theorem override_url_takes_precedence (args : Args.t) (u : string) :
  Args.alternate_url args = Some u ->
  (forall (self self' : Fuzzer Template Logger) tr,
      alternate_url self = Some u ->
      prepare self = (tr, Ok self') ->
      base_url self' = Some u) /\
  (forall t, In (EvTarget t) (trace (main args)) ->
             FuzzerTarget.base_url t = Some u).
Proof.
  intros Halt. split.
  - intros self self' tr Hs. unfold prepare.
    destruct (process_api_resources (api_resources self)); simpl;
      [| discriminate].
    intros [= _ <-]. simpl. now rewrite Hs.
  - intros t Hin.
    destruct (main_target _ _ Hin) as (api & ts & self & _ & _ & Hb & _ & ->).
    simpl. now rewrite Hb, Halt.
Qed.

(** C9, as the code has it: a non-empty file argument makes [main]
    read that file and never download anything, whatever the URL
    argument is; a download happens only when the file argument is
    absent or the empty string. *)
Theorem file_argument_wins_over_url (args : Args.t) :
  (forall path,
      arg_given (Args.src_file args) = Some path ->
      load_definition args =
        ([EvReadFile path], get_api_definition_from_file path) /\
      (forall u d, ~ In (EvFetchUrl u d) (trace (main args)))) /\
  (forall u d,
      In (EvFetchUrl u d) (trace (main args)) ->
      arg_given (Args.src_file args) = None /\
      arg_given (Args.src_url args) = Some u).
Proof.
  assert (Hfuzz : forall api u d, ~ In (EvFetchUrl u d) (trace (fuzz args api))).
  { intros api u d Hin.
    destruct (process_api_resources api) as [ts | e] eqn:Hp.
    - destruct (fuzz_prepare_ok args api ts Hp) as (self & _ & _ & _ & Hf).
      rewrite Hf in Hin. simpl in Hin.
      destruct Hin as [Hin | [Hin | Hin]]; try discriminate.
      now apply run_no_fetch in Hin.
    - rewrite (fuzz_prepare_fail args api e Hp) in Hin. simpl in Hin.
      destruct Hin as [Hin | []]. discriminate. }
  assert (Hmain : forall u d,
             In (EvFetchUrl u d) (trace (main args)) ->
             In (EvFetchUrl u d) (trace (load_definition args))).
  { intros u d Hin.
    destruct (load_definition args) as [tr0 [api | e]] eqn:Hload.
    - rewrite (main_load_ok _ _ _ Hload) in Hin. simpl in *.
      apply in_app_or in Hin. destruct Hin as [Hin | Hin]; trivial.
      now apply Hfuzz in Hin.
    - now rewrite (main_load_fail _ _ _ Hload) in Hin. }
  split.
  - intros path Hpath.
    destruct (load_definition_cases args)
      as [(p & Hf & H) | [(u & Hf & _ & H) | (Hf & _ & H)]];
      try congruence.
    assert (p = path) as -> by congruence.
    split; trivial.
    intros u d Hin. apply Hmain in Hin. rewrite H in Hin. simpl in Hin.
    destruct Hin as [Hin | []]. discriminate.
  - intros u d Hin. apply Hmain in Hin.
    destruct (load_definition_cases args)
      as [(p & Hf & H) | [(u' & Hf & Hu & H) | (Hf & _ & H)]];
      rewrite H in Hin; simpl in Hin.
    + destruct Hin as [Hin | []]. discriminate.
    + destruct Hin as [Hin | []]. injection Hin as -> _. auto.
    + contradiction.
Qed.

(** C10: [__init__] always returns a [Fuzzer] whose [auth_headers] is
    not [None]: a falsy argument, [None] included, is replaced by the
    empty dict and a truthy one is kept.  Every target that [main]
    builds therefore receives headers that are not [None]. *)
Theorem auth_headers_never_none (api : pyval) (dir : string) (lvl : Z)
    (log : string) (basic : bool) (alt dst : option string) (h : pyval) :
  (exists self,
      outcome (__init__ api dir lvl log basic alt dst h) = Ok self /\
      auth_headers self <> PNone /\
      (truthy h = false -> auth_headers self = PDict []) /\
      (truthy h = true -> auth_headers self = h)) /\
  (forall args t,
      In (EvTarget t) (trace (main args)) ->
      FuzzerTarget.auth_headers t <> PNone).
Proof.
  split.
  - eexists. split; [reflexivity |]. simpl.
    destruct (truthy h) eqn:Hh; repeat split;
      try discriminate; try reflexivity.
    intros ->. discriminate.
  - intros args t Hin.
    destruct (main_target _ _ Hin) as (a & ts & self & _ & _ & _ & Ha & ->).
    simpl. rewrite Ha.
    destruct (truthy (Args.headers args)) eqn:Hh; [| discriminate].
    intros Heq. rewrite Heq in Hh. discriminate.
Qed.

End Properties.

(** ** The claims on the concrete setting *)

Import Demo.



(** C2 at [fuzzer.py -s api.json]: the complete run and the run
    interrupted after ten events. *)
Lemma exit_status_zero_witness :
  exit_status (outcome (main (collab := sound) from_file)) = 0 /\
  exit_status (outcome (deliver_sigint 10 (main (collab := sound) from_file))) = 0.
Proof.
  destruct (exit_status_zero_on_completion_and_interrupt
              (collab := sound) from_file) as [Hdone Hint].
  split.
  - apply Hdone. reflexivity.
  - apply (Hint 10%nat).
    + apply Nat.leb_le. reflexivity.
    + reflexivity.
Defined.

(** C2 as the specification words it fails: the interrupted run does
    not end with a non-zero status. *)
Lemma interrupted_run_exits_with_zero :
  handler_installed (firstn 10 (trace (main (collab := sound) from_file))) = true /\
  ~ exit_status (outcome (deliver_sigint 10 (main (collab := sound) from_file))) <> 0.
Proof.
  split; [reflexivity |]. intros H. apply H. reflexivity.
Qed.

(** C3 at [fuzzer.py] without options. *)
Lemma no_source_exits_with_status_zero_witness :
  main (collab := sound) no_source = ([], Raise (SystemExit None)) /\
  exit_status (outcome (main (collab := sound) no_source)) = 0.
Proof.
  apply (no_source_exits_with_status_zero (collab := sound) no_source);
    reflexivity.
Defined.

(** C4 at [fuzzer.py -s broken.json]. *)
Lemma schema_error_before_any_request_witness :
  main (collab := sound) malformed
    = ([EvReadFile "broken.json"] ++ [EvLogInfo "APIFuzzer initialized"],
       Raise (Raised "SchemaError")) /\
  Forall (fun ev => is_target_activity ev = false)
         (trace (main (collab := sound) malformed)) /\
  requests (trace (main (collab := sound) malformed)) = [] /\
  (forall path,
      arg_given (Args.src_file malformed) = Some path ->
      Forall (fun ev => is_network ev = false)
             (trace (main (collab := sound) malformed))).
Proof.
  apply (schema_error_before_any_request (collab := sound) malformed
           [EvReadFile "broken.json"] broken_api (Raised "SchemaError"));
    reflexivity.
Defined.

(** C5 on three templates: all compiling, then with the second failing. *)
Lemma templates_connected_in_order_witness :
  connected (trace (run (collab := sound) prepared)) = [0; 1; 2]%nat /\
  run (collab := flaky) prepared
    = (EvTarget (target_of prepared) :: EvInterface :: map EvConnect [0%nat],
       Raise (Raised "TemplateCompileError")).
Proof.
  split.
  - apply (proj1 (templates_connected_in_order (collab := sound)
                    prepared [0; 1; 2]%nat eq_refl) [0; 1; 2]%nat).
    repeat constructor.
  - apply (proj2 (templates_connected_in_order (collab := flaky)
                    prepared [0; 1; 2]%nat eq_refl)
             [0%nat] [0%nat] 1%nat (Raised "TemplateCompileError") [2%nat]).
    + reflexivity.
    + repeat constructor.
    + reflexivity.
Defined.

(** C5 as the specification words it fails: the third template would
    compile, but the run has ended at the second and it is never
    connected. *)
Lemma template_after_failure_is_dropped :
  ~ each_template_connected (collab := flaky) prepared.
Proof.
  intros H.
  specialize (H [0; 1; 2]%nat 2%nat 2%nat eq_refl).
  assert (Hin : In 2%nat [0; 1; 2]%nat) by (simpl; auto).
  specialize (H Hin eq_refl). vm_compute in H.
  destruct H as [H | H]; [discriminate | exact H].
Qed.

(** C6 at levels 1 and 2 of one command line. *)
Lemma level_is_stored_and_never_read_witness :
  main (collab := sound) (Args.with_level both_sources 1)
    = main (collab := sound) (Args.with_level both_sources 2) /\
  candidates "id" (trace (main (collab := sound) (Args.with_level both_sources 1)))
    = [PInt 0; PInt 1; PInt 2].
Proof.
  destruct (level_is_stored_and_never_read (collab := sound)
              both_sources "id" 1 2) as (Hmain & _ & _ & _ & Hengine).
  split; [exact Hmain |].
  destruct (Hengine [EvReadFile "api.json"] good_api
              [0; 1; 2]%nat [0; 1; 2]%nat) as (target & Hc).
  - reflexivity.
  - reflexivity.
  - repeat constructor.
  - rewrite Hc. reflexivity.
Defined.

(** C6 as the specification words it fails: the level does not bound
    the candidates, the field gets as many at every level. *)
Lemma level_does_not_bound_candidates :
  List.length (candidates "id"
     (trace (main (collab := sound) (Args.with_level both_sources 1)))) = 3%nat /\
  List.length (candidates "id"
     (trace (main (collab := sound) (Args.with_level both_sources 2)))) = 3%nat /\
  ~ level_bounds_candidates (collab := sound) both_sources "id".
Proof.
  split; [reflexivity |]. split; [reflexivity |].
  intros (n & m & Hdiff). apply Hdiff.
  now rewrite (level_is_not_read (collab := sound) both_sources n m).
Qed.

(** C8 where the definition declares [declared.example] and the command
    line gives another URL. *)
Lemma override_url_takes_precedence_witness :
  declared_server (Collaborators := sound) good_api = Some "declared.example" /\
  In (EvTarget overridden_target) (trace (main (collab := sound) both_sources)) /\
  FuzzerTarget.base_url overridden_target = Some "http://override.example".
Proof.
  split; [reflexivity |].
  assert (Hin : In (EvTarget overridden_target)
                   (trace (main (collab := sound) both_sources))).
  { vm_compute. repeat (first [left; reflexivity | right]). }
  split; [exact Hin |].
  apply (proj2 (override_url_takes_precedence (collab := sound) both_sources
                  "http://override.example" eq_refl) overridden_target Hin).
Defined.

(** C9 where both a file and a URL are given. *)
Lemma file_argument_wins_over_url_witness :
  Args.src_url both_sources = Some "http://api.example/def.json" /\
  load_definition (collab := sound) both_sources
    = ([EvReadFile "api.json"], read_file "api.json") /\
  (forall u d, ~ In (EvFetchUrl u d) (trace (main (collab := sound) both_sources))).
Proof.
  split; [reflexivity |].
  apply (proj1 (file_argument_wins_over_url (collab := sound) both_sources)
           "api.json").
  reflexivity.
Defined.

(** C9 as the specification words it fails: with [-s ''] and a URL both
    arguments are on the command line, and the URL is downloaded. *)
Lemma empty_file_argument_downloads :
  ~ file_given_means_no_download (collab := sound) Cases.empty_file.
Proof.
  intros H.
  apply (H "" "http://api.example/def.json" eq_refl eq_refl
           "http://api.example/def.json" "/tmp/tmpdef").
  vm_compute. left. reflexivity.
Qed.

(** C10 at the default, [None]. *)
Lemma auth_headers_never_none_witness :
  exists self : Fuzzer nat unit,
    outcome (__init__ (collab := sound) good_api "/tmp/report" 1 "warning"
               false None None PNone) = Ok self /\
    auth_headers self = PDict [].
Proof.
  destruct (proj1 (auth_headers_never_none (collab := sound) good_api
                     "/tmp/report" 1 "warning" false None None PNone))
    as (self & Hself & _ & Hfalsy & _).
  exists self. split; [exact Hself | apply Hfalsy; reflexivity].
Defined.

(** ** [str2bool] *)

Lemma lower_char_idem (c : Ascii.ascii) : lower_char (lower_char c) = lower_char c.
Proof. destruct c as [[] [] [] [] [] [] [] []]; reflexivity. Qed.

Lemma lower_idem (s : string) : lower (lower s) = lower s.
Proof.
  induction s as [| c s IH]; simpl; trivial.
  now rewrite lower_char_idem, IH.
Qed.

Lemma lower_length (s : string) : String.length (lower s) = String.length s.
Proof. induction s as [| c s IH]; simpl; congruence. Qed.

(** A lowered string does not start with a capital T or F. *)
Lemma lower_not_capital_T (s rest : string) :
  String.eqb (lower s) (String "T"%char rest) = false.
Proof.
  destruct s as [| c s]; simpl; trivial.
  replace (Ascii.eqb (lower_char c) "T"%char) with false; trivial.
  destruct c as [[] [] [] [] [] [] [] []]; reflexivity.
Qed.

Lemma lower_not_capital_F (s rest : string) :
  String.eqb (lower s) (String "F"%char rest) = false.
Proof.
  destruct s as [| c s]; simpl; trivial.
  replace (Ascii.eqb (lower_char c) "F"%char) with false; trivial.
  destruct c as [[] [] [] [] [] [] [] []]; reflexivity.
Qed.

(** The capitalised words of the two tuples are never matched. *)
Lemma capitalised_words_unused (s : string) :
  str_in (lower s) ["yes"; "true"; "t"; "y"; "1"; "True"; "T"]
    = str_in (lower s) ["yes"; "true"; "t"; "y"; "1"] /\
  str_in (lower s) ["no"; "false"; "f"; "n"; "0"; "False"; "F"]
    = str_in (lower s) ["no"; "false"; "f"; "n"; "0"].
Proof.
  unfold str_in. cbn [existsb].
  rewrite !lower_not_capital_T, !lower_not_capital_F. auto.
Qed.

(** X1: [str2bool] ignores the case of the letters A to Z: a string and
    its lowered form get the same answer. *)
Theorem str2bool_ignores_case (s : string) :
  str2bool (PStr (lower s)) = str2bool (PStr s).
Proof. unfold str2bool. now rewrite lower_idem. Qed.

(** X2: on a string, [str2bool] answers [True] exactly for the lowered
    words yes, true, t, y, 1 and [False] exactly for no, false, f, n, 0;
    anything else raises ArgumentTypeError.  The entries 'True', 'T',
    'False' and 'F' of the tuples add nothing. *)
Theorem str2bool_accepted_words (s : string) :
  str2bool (PStr s) =
  if str_in (lower s) ["yes"; "true"; "t"; "y"; "1"] then Ok true
  else if str_in (lower s) ["no"; "false"; "f"; "n"; "0"] then Ok false
  else Raise (Raised "ArgumentTypeError").
Proof.
  unfold str2bool.
  destruct (capitalised_words_unused s) as [-> ->]. reflexivity.
Qed.

(** X3: a string that [str2bool] accepts has between one and five
    characters; the empty string and longer ones raise. *)
Theorem str2bool_accepts_short_strings_only (s : string) (b : bool) :
  str2bool (PStr s) = Ok b ->
  (1 <= String.length s <= 5)%nat.
Proof.
  unfold str2bool. rewrite <- (lower_length s).
  destruct (str_in (lower s) ["yes"; "true"; "t"; "y"; "1"; "True"; "T"]) eqn:Ht.
  - intros _. apply existsb_exists in Ht. destruct Ht as (w & Hw & Heq).
    apply String.eqb_eq in Heq. rewrite Heq.
    simpl in Hw. repeat (destruct Hw as [<- | Hw]; [simpl; lia |]).
    contradiction.
  - destruct (str_in (lower s) ["no"; "false"; "f"; "n"; "0"; "False"; "F"]) eqn:Hf;
      [| discriminate].
    intros _. apply existsb_exists in Hf. destruct Hf as (w & Hw & Heq).
    apply String.eqb_eq in Heq. rewrite Heq.
    simpl in Hw. repeat (destruct Hw as [<- | Hw]; [simpl; lia |]).
    contradiction.
Qed.

(** X3 at [--basic_output=Yes]. *)
Lemma str2bool_accepts_short_strings_only_witness :
  (1 <= String.length "Yes" <= 5)%nat.
Proof.
  apply (str2bool_accepts_short_strings_only "Yes" true). reflexivity.
Defined.

(** ** More on the main block *)

Section Coverage.

Context {Template Compiled Logger : Type}.
Context {collab : Collaborators Template Compiled Logger}.

(** The target [run] builds after [__init__] and [prepare]. *)
Lemma fuzz_prepared_target (args : Args.t) (api : pyval) (ts : list Template) :
  process_api_resources api = Ok ts ->
  exists self : Fuzzer Template Logger,
    templates self = Some ts /\
    FuzzerTarget.name (target_of self) = "target" /\
    FuzzerTarget.report_dir (target_of self) = Args.report_dir args /\
    FuzzerTarget.auth_headers (target_of self) =
      (if truthy (Args.headers args) then Args.headers args else PDict []) /\
    fuzz args api =
      (EvLogInfo "APIFuzzer initialized" :: EvSignal :: trace (run self),
       outcome (run self)).
Proof.
  intros H. unfold fuzz, __init__, prepare. simpl. rewrite H. simpl.
  match goal with
  | |- context [run ?s] => exists s; repeat split; destruct (run s); reflexivity
  end.
Qed.

(** What [load_definition] leaves in the trace. *)
Lemma load_definition_trace (args : Args.t) :
  trace (load_definition args) = [] \/
  (exists p, trace (load_definition args) = [EvReadFile p]) \/
  (exists u, trace (load_definition args) = [EvFetchUrl u mktemp]).
Proof.
  destruct (load_definition_cases args)
    as [(p & _ & ->) | [(u & _ & _ & ->) | (_ & _ & ->)]]; simpl; eauto.
Qed.

(** Every execution of [main] either stops before the handler is
    installed, having at most loaded the definition and logged, or goes
    through [run] on a prepared [Fuzzer]. *)
Lemma main_shape (args : Args.t) :
  (exists tr0,
      tr0 = trace (load_definition args) /\
      (trace (main args) = tr0 \/
       trace (main args) = tr0 ++ [EvLogInfo "APIFuzzer initialized"])) \/
  (exists tr0 api ts (self : Fuzzer Template Logger),
      load_definition args = (tr0, Ok api) /\
      process_api_resources api = Ok ts /\
      templates self = Some ts /\
      FuzzerTarget.name (target_of self) = "target" /\
      FuzzerTarget.report_dir (target_of self) = Args.report_dir args /\
      FuzzerTarget.auth_headers (target_of self) =
        (if truthy (Args.headers args) then Args.headers args else PDict []) /\
      main args =
        (tr0 ++ EvLogInfo "APIFuzzer initialized" :: EvSignal :: trace (run self),
         outcome (run self))).
Proof.
  destruct (load_definition args) as [tr0 [api | e]] eqn:Hload.
  - destruct (process_api_resources api) as [ts | e] eqn:Hp.
    + right.
      destruct (fuzz_prepared_target args api ts Hp)
        as (self & H1 & H2 & H3 & H4 & Hf).
      exists tr0, api, ts, self. repeat split; trivial.
      rewrite (main_load_ok _ _ _ Hload), Hf. reflexivity.
    + left. exists tr0. split; trivial. right.
      rewrite (main_load_ok _ _ _ Hload), (fuzz_prepare_fail _ _ _ Hp).
      reflexivity.
  - left. exists tr0. split; trivial. left.
    now rewrite (main_load_fail _ _ _ Hload).
Qed.

Lemma existsb_firstn {A : Type} (P : A -> bool) (k : nat) (l : list A) :
  existsb P (firstn k l) = true -> existsb P l = true.
Proof.
  intros H. apply existsb_exists in H. destruct H as (x & Hin & Hx).
  apply existsb_exists. exists x. split; trivial.
  rewrite <- (firstn_skipn k l). apply in_or_app. now left.
Qed.

(** A prefix of [l1 ++ l2] that holds something [l1] does not have
    contains all of [l1]. *)
Lemma firstn_reaches {A : Type} (P : A -> bool) (k : nat) (l1 l2 : list A) :
  existsb P l1 = false ->
  existsb P (firstn k (l1 ++ l2)) = true ->
  exists l2', firstn k (l1 ++ l2) = l1 ++ l2'.
Proof.
  intros Hno Hyes. rewrite firstn_app in *.
  destruct (Nat.le_gt_cases (List.length l1) k) as [Hle | Hgt].
  - rewrite (firstn_all2 l1 Hle). eauto.
  - replace (k - List.length l1)%nat with 0%nat in Hyes by lia.
    simpl in Hyes. rewrite app_nil_r in Hyes.
    apply existsb_firstn in Hyes. congruence.
Qed.

(** X4: when the definition file cannot be read, [main] ends with that
    exception right after the attempt: a URL given as well is not tried
    and nothing else happens. *)
Theorem unreadable_file_ends_main (args : Args.t) (path : string) (e : exn) :
  arg_given (Args.src_file args) = Some path ->
  get_api_definition_from_file path = Raise e ->
  main args = ([EvReadFile path], Raise e).
Proof.
  intros Hf He. apply main_load_fail.
  unfold load_definition. rewrite Hf. simpl. now rewrite He.
Qed.

(** X5: an empty file argument counts as no file argument: with a URL
    given, the definition is downloaded. *)
Theorem empty_file_argument_falls_through (args : Args.t) (url : string) :
  Args.src_file args = Some "" ->
  arg_given (Args.src_url args) = Some url ->
  load_definition args =
    ([EvFetchUrl url mktemp], save_api_definition url mktemp).
Proof.
  intros Hf Hu. unfold load_definition. rewrite Hf, Hu. reflexivity.
Qed.

(** X6: the handler is installed before the target is built: an
    interrupt that arrives once [run] has built the target and before
    it starts the engine, that is while it builds the interface and
    connects the templates, ends the process with [SystemExit(0)] and
    not with a KeyboardInterrupt.  Once [start] has control the
    handling of SIGINT is the engine's business. *)
Theorem interrupt_while_building_is_handled (args : Args.t) (k : nat) :
  (k <= List.length (trace (main args)))%nat ->
  existsb is_target_activity (firstn k (trace (main args))) = true ->
  (forall model target,
      ~ In (EvStart model target) (firstn k (trace (main args)))) ->
  deliver_sigint k (main args)
    = (firstn k (trace (main args)), Raise (SystemExit (Some 0))).
Proof.
  intros Hk Hact _. apply deliver_sigint_handled; trivial.
  destruct (main_shape args)
    as [(tr0 & Htr0 & Hshape) | (tr0 & api & ts & self & Hload & _ & _ & _ & _ & _ & Hmain)].
  - apply existsb_firstn in Hact. exfalso.
    assert (Hquiet : existsb is_target_activity tr0 = false).
    { subst tr0. destruct (load_definition_trace args)
        as [-> | [(p & ->) | (u & ->)]]; reflexivity. }
    destruct Hshape as [H | H]; rewrite H in Hact.
    + congruence.
    + rewrite existsb_app, Hquiet in Hact. discriminate.
  - assert (Hquiet0 : existsb is_target_activity (trace (load_definition args)) = false).
    { destruct (load_definition_trace args)
        as [-> | [(p & ->) | (u & ->)]]; reflexivity. }
    rewrite Hload in Hquiet0. simpl in Hquiet0.
    rewrite Hmain in *. simpl in *.
    assert (Hquiet : existsb is_target_activity
                       (tr0 ++ [EvLogInfo "APIFuzzer initialized"; EvSignal]) = false).
    { rewrite existsb_app, Hquiet0. reflexivity. }
    replace (tr0 ++ EvLogInfo "APIFuzzer initialized" :: EvSignal :: trace (run self))
      with ((tr0 ++ [EvLogInfo "APIFuzzer initialized"; EvSignal]) ++ trace (run self))
      in * by now rewrite <- app_assoc.
    destruct (firstn_reaches _ _ _ _ Hquiet Hact) as (rest & ->).
    unfold handler_installed. rewrite !existsb_app. simpl.
    now rewrite orb_true_r.
Qed.

(** X7: an interrupt while the definition is loaded, or during
    [__init__] and [prepare], finds no handler: the process ends with
    KeyboardInterrupt and a non-zero status. *)
Theorem interrupt_before_run_is_not_handled (args : Args.t) (k : nat) :
  (k <= 2)%nat ->
  (k <= List.length (trace (main args)))%nat ->
  deliver_sigint k (main args)
    = (firstn k (trace (main args)), Raise KeyboardInterrupt) /\
  exit_status (outcome (deliver_sigint k (main args))) = 130.
Proof.
  intros Hk2 Hk.
  assert (Hno : handler_installed (firstn k (trace (main args))) = false).
  { destruct (main_shape args)
      as [(tr0 & Htr0 & Hshape) | (tr0 & api & ts & self & Hload & _ & _ & _ & _ & _ & Hmain)].
    - destruct (handler_installed (firstn k (trace (main args)))) eqn:Hh; trivial.
      apply existsb_firstn in Hh. exfalso.
      assert (Hquiet : existsb is_signal tr0 = false).
      { subst tr0. destruct (load_definition_trace args)
          as [-> | [(p & ->) | (u & ->)]]; reflexivity. }
      destruct Hshape as [H | H]; rewrite H in Hh.
      + congruence.
      + rewrite existsb_app, Hquiet in Hh. discriminate.
    - rewrite Hmain. simpl.
      destruct (load_definition_cases args)
        as [(p & _ & H) | [(u & _ & _ & H) | (_ & _ & H)]];
        rewrite H in Hload; try discriminate Hload;
        injection Hload as <- _;
        destruct k as [| [| [| k]]]; try lia; reflexivity. }
  unfold deliver_sigint. apply Nat.leb_le in Hk. rewrite Hk, Hno. auto.
Qed.

Lemma connected_load (args : Args.t) :
  connected (trace (load_definition args)) = [].
Proof.
  destruct (load_definition_trace args) as [-> | [(p & ->) | (u & ->)]];
    reflexivity.
Qed.

Lemma in_map_engine (ev : event Compiled) (evs : list engine_event) :
  In ev (map EvEngine evs) -> exists e, ev = EvEngine e.
Proof.
  intros H. apply in_map_iff in H. destruct H as (e & <- & _). eauto.
Qed.

(** X8: the engine is started at most with what [run] has built: the
    model it receives is the list of the templates connected, in order,
    and its target is the one target of the execution. *)
Theorem engine_starts_with_what_was_built (args : Args.t)
    (model : list Compiled) (target : FuzzerTarget.t) :
  In (EvStart model target) (trace (main args)) ->
  connected (trace (main args)) = model /\
  (forall t, In (EvTarget t) (trace (main args)) -> t = target) /\
  In (EvTarget target) (trace (main args)).
Proof.
  intros Hin.
  destruct (main_shape args)
    as [(tr0 & Htr0 & Hshape) | (tr0 & api & ts & self & Hload & _ & _ & _ & _ & _ & Hmain)].
  - exfalso. subst tr0.
    destruct Hshape as [H | H]; rewrite H in Hin;
      destruct (load_definition_trace args) as [H0 | [(p & H0) | (u & H0)]];
      rewrite H0 in Hin; simpl in Hin; intuition discriminate.
  - assert (Hc0 : connected tr0 = []).
    { generalize (connected_load args). now rewrite Hload. }
    assert (Hl0 : forall ev, In ev tr0 ->
                    (exists p, ev = EvReadFile p) \/ (exists u d, ev = EvFetchUrl u d)).
    { intros ev Hev.
      destruct (load_definition_trace args) as [H0 | [(p & H0) | (u & H0)]];
        rewrite Hload in H0; simpl in H0; subst tr0; simpl in Hev.
      - contradiction.
      - destruct Hev as [<- | []]. eauto.
      - destruct Hev as [<- | []]. eauto. }
    rewrite Hmain in *. simpl in *. clear Hmain.
    destruct (run_trace_shape self) as (cs & tail & Hrun & Htail).
    rewrite Hrun in *. clear Hrun.
    assert (Htl : exists evs, tail = EvStart model target :: map EvEngine evs).
    { apply in_app_or in Hin. destruct Hin as [Hin | Hin].
      { apply Hl0 in Hin. destruct Hin as [(p & H) | (u & d & H)]; discriminate. }
      destruct Hin as [Hin | [Hin | [Hin | [Hin | Hin]]]]; try discriminate.
      apply in_app_or in Hin. destruct Hin as [Hin | Hin].
      { apply in_map_iff in Hin. destruct Hin as (c & H & _). discriminate. }
      destruct Htail as [-> | (evs & ->)]; [contradiction |].
      destruct Hin as [Hin | Hin].
      - injection Hin as <- <-. eauto.
      - apply in_map_engine in Hin. destruct Hin as (e & H). discriminate. }
    destruct Htl as (evs & ->).
    assert (cs = model /\ target_of self = target) as [-> <-].
    { destruct Htail as [H | (evs' & H)]; [discriminate |].
      injection H as <- <- _. auto. }
    repeat split.
    + rewrite connected_app, Hc0. simpl.
      rewrite connected_app, connected_map_connect. simpl.
      now rewrite connected_engine, app_nil_r.
    + intros t Ht. apply in_app_or in Ht. destruct Ht as [Ht | Ht].
      { apply Hl0 in Ht. destruct Ht as [(p & H) | (u & d & H)]; discriminate. }
      destruct Ht as [Ht | [Ht | [Ht | [Ht | Ht]]]]; try discriminate.
      { now injection Ht. }
      apply in_app_or in Ht. destruct Ht as [Ht | Ht].
      { apply in_map_iff in Ht. destruct Ht as (c & H & _). discriminate. }
      destruct Ht as [Ht | Ht]; [discriminate |].
      apply in_map_engine in Ht. destruct Ht as (e & H). discriminate.
    + apply in_or_app. right. simpl. auto.
Qed.

(** X9: [--level] and [--test_report] are stored and never read: two
    command lines that agree on every other option make [main] do
    exactly the same. *)
Theorem level_and_report_are_ignored (a b : Args.t) :
  same_but_level_and_report a b ->
  main a = main b.
Proof.
  intros (H1 & H2 & H3 & H4 & H5 & H6 & H7).
  destruct a, b. simpl in *. subst.
  unfold main.
  match goal with
  | |- bind ?l1 _ = bind ?l2 _ => change l2 with l1; destruct l1 as [tr0 [api | e]]
  end; simpl; trivial.
  unfold fuzz, __init__, prepare. simpl.
  destruct (process_api_resources api); reflexivity.
Qed.

(** X10: [run] on a [Fuzzer] that was not prepared builds a target
    without base URL and the interface, then raises TypeError on the
    missing templates: nothing is connected and the engine is not
    started. *)
Theorem run_before_prepare_raises (api : pyval) (dir : string) (lvl : Z)
    (log : string) (basic : bool) (alt dst : option string) (h : pyval)
    (self : Fuzzer Template Logger) :
  outcome (__init__ api dir lvl log basic alt dst h) = Ok self ->
  run self = ([EvTarget (target_of self); EvInterface], Raise TypeError) /\
  FuzzerTarget.base_url (target_of self) = None.
Proof.
  simpl. intros [= <-]. split; [| reflexivity].
  now apply run_no_templates.
Qed.

(** X12: a definition that loads, is accepted by the generator and
    whose templates all compile takes [main] through the whole
    sequence: log, handler, target, interface, one connection per
    template, start of the engine on all of them; [main] ends as the
    engine does. *)
Theorem main_reaches_the_engine (args : Args.t) (tr0 : list (event Compiled))
    (api : pyval) (ts : list Template) (cs : list Compiled) :
  load_definition args = (tr0, Ok api) ->
  process_api_resources api = Ok ts ->
  compiles_to ts cs ->
  exists target,
    FuzzerTarget.name target = "target" /\
    FuzzerTarget.report_dir target = Args.report_dir args /\
    FuzzerTarget.auth_headers target =
      (if truthy (Args.headers args) then Args.headers args else PDict []) /\
    main args =
      (tr0 ++ EvLogInfo "APIFuzzer initialized" :: EvSignal
           :: EvTarget target :: EvInterface :: map EvConnect cs
           ++ EvStart cs target :: map EvEngine (fst (fuzz_session cs target)),
       snd (fuzz_session cs target)).
Proof.
  intros Hload Hp Hcs.
  destruct (fuzz_prepared_target args api ts Hp)
    as (self & Hts & H2 & H3 & H4 & Hf).
  exists (target_of self). repeat split; trivial.
  rewrite (main_load_ok _ _ _ Hload), Hf, (run_ok _ _ _ Hts Hcs).
  reflexivity.
Qed.

(** X13: every target [main] builds is named 'target', reports into
    the directory of the command line and carries the [--headers] value
    as it is when that value is truthy, also when it is a list and not
    a dict. *)
Theorem target_carries_the_command_line (args : Args.t) (t : FuzzerTarget.t) :
  In (EvTarget t) (trace (main args)) ->
  FuzzerTarget.name t = "target" /\
  FuzzerTarget.report_dir t = Args.report_dir args /\
  (truthy (Args.headers args) = true ->
   FuzzerTarget.auth_headers t = Args.headers args).
Proof.
  intros Hin.
  destruct (main_shape args)
    as [(tr0 & Htr0 & Hshape) | (tr0 & api & ts & self & Hload & _ & _ & Hn & Hd & Hh & Hmain)].
  - exfalso. subst tr0.
    destruct Hshape as [H | H]; rewrite H in Hin;
      destruct (load_definition_trace args) as [H0 | [(p & H0) | (u & H0)]];
      rewrite H0 in Hin; simpl in Hin; intuition discriminate.
  - rewrite Hmain in Hin. simpl in Hin.
    apply in_app_or in Hin. destruct Hin as [Hin | Hin].
    + exfalso.
      destruct (load_definition_trace args) as [H0 | [(p & H0) | (u & H0)]];
        rewrite Hload in H0; simpl in H0; subst tr0; simpl in Hin;
        intuition discriminate.
    + destruct Hin as [Hin | [Hin | Hin]]; try discriminate.
      apply run_target in Hin. subst t. repeat split; trivial.
      intros Htruthy. now rewrite Hh, Htruthy.
Qed.

End Coverage.

(** ** The further properties on the concrete setting *)

(** X4 where the file is missing and a URL is given as well. *)
Lemma unreadable_file_ends_main_witness :
  Args.src_url Cases.unreadable = Some "http://api.example/def.json" /\
  main (collab := sound) Cases.unreadable
    = ([EvReadFile "missing.json"], Raise (Raised "FileNotFoundError")).
Proof.
  split; [reflexivity |].
  apply (unreadable_file_ends_main (collab := sound) Cases.unreadable
           "missing.json" (Raised "FileNotFoundError")); reflexivity.
Defined.

(** X5 at [-s '' --src_url http://api.example/def.json]. *)
Lemma empty_file_argument_falls_through_witness :
  load_definition (collab := sound) Cases.empty_file
    = ([EvFetchUrl "http://api.example/def.json" "/tmp/tmpdef"],
       download "http://api.example/def.json" "/tmp/tmpdef").
Proof.
  apply (empty_file_argument_falls_through (collab := sound) Cases.empty_file
           "http://api.example/def.json"); reflexivity.
Defined.

(** X6 at [fuzzer.py -s api.json], interrupted after six events: the
    target, the interface and the first connection. *)
Lemma interrupt_while_building_is_handled_witness :
  deliver_sigint 6 (main (collab := sound) from_file)
    = (firstn 6 (trace (main (collab := sound) from_file)),
       Raise (SystemExit (Some 0))).
Proof.
  apply (interrupt_while_building_is_handled (collab := sound) from_file 6).
  - apply Nat.leb_le. reflexivity.
  - reflexivity.
  - intros model target Hin. vm_compute in Hin.
    repeat (destruct Hin as [Hin | Hin]; [discriminate |]).
    exact Hin.
Defined.

(** X7 at [fuzzer.py -s api.json], interrupted after two events. *)
Lemma interrupt_before_run_is_not_handled_witness :
  deliver_sigint 2 (main (collab := sound) from_file)
    = (firstn 2 (trace (main (collab := sound) from_file)),
       Raise KeyboardInterrupt) /\
  exit_status (outcome (deliver_sigint 2 (main (collab := sound) from_file))) = 130.
Proof.
  apply (interrupt_before_run_is_not_handled (collab := sound) from_file 2).
  - apply Nat.leb_le. reflexivity.
  - apply Nat.leb_le. reflexivity.
Defined.

(** X8 at [fuzzer.py -s api.json]. *)
Lemma engine_starts_with_what_was_built_witness :
  connected (trace (main (collab := sound) from_file)) = [0; 1; 2]%nat /\
  (forall t, In (EvTarget t) (trace (main (collab := sound) from_file)) ->
             t = target_of prepared) /\
  In (EvTarget (target_of prepared)) (trace (main (collab := sound) from_file)).
Proof.
  apply (engine_starts_with_what_was_built (collab := sound) from_file
           [0; 1; 2]%nat (target_of prepared)).
  vm_compute. repeat (first [left; reflexivity | right]).
Defined.

(** X9 at two command lines that differ in [--level] and [-t]. *)
Lemma level_and_report_are_ignored_witness :
  Args.level Cases.with_report <> Args.level Cases.without_report /\
  main (collab := sound) Cases.with_report
    = main (collab := sound) Cases.without_report.
Proof.
  split; [discriminate |].
  apply (level_and_report_are_ignored (collab := sound)
           Cases.with_report Cases.without_report).
  repeat split.
Defined.

(** X10 on a [Fuzzer] fresh from [__init__]. *)
Lemma run_before_prepare_raises_witness :
  exists self : Fuzzer nat unit,
    outcome (__init__ (collab := sound) good_api "/tmp/report" 1 "warning"
               false None None PNone) = Ok self /\
    run (collab := sound) self
      = ([EvTarget (target_of self); EvInterface], Raise TypeError).
Proof.
  eexists. split; [reflexivity |].
  apply (proj1 (run_before_prepare_raises (collab := sound) good_api
                  "/tmp/report" 1 "warning" false None None PNone _ eq_refl)).
Defined.

(** X12 at [fuzzer.py -s api.json]. *)
Lemma main_reaches_the_engine_witness :
  exists target,
    FuzzerTarget.name target = "target" /\
    FuzzerTarget.report_dir target = "/tmp/report" /\
    FuzzerTarget.auth_headers target = PDict [] /\
    main (collab := sound) from_file =
      ([EvReadFile "api.json"] ++ EvLogInfo "APIFuzzer initialized" :: EvSignal
         :: EvTarget target :: EvInterface :: map EvConnect [0; 1; 2]%nat
         ++ EvStart [0; 1; 2]%nat target
         :: map EvEngine (fst (session [0; 1; 2]%nat target)),
       snd (session [0; 1; 2]%nat target)).
Proof.
  apply (main_reaches_the_engine (collab := sound) from_file
           [EvReadFile "api.json"] good_api [0; 1; 2]%nat [0; 1; 2]%nat).
  - reflexivity.
  - reflexivity.
  - repeat constructor.
Defined.

(** X13 where [--headers] is a list of dicts. *)
Lemma target_carries_the_command_line_witness :
  FuzzerTarget.name Cases.list_headers_target = "target" /\
  FuzzerTarget.report_dir Cases.list_headers_target = "/tmp/report" /\
  FuzzerTarget.auth_headers Cases.list_headers_target
    = PList [PDict [("Authorization", PStr "SuperSecret")]].
Proof.
  assert (Hin : In (EvTarget Cases.list_headers_target)
                   (trace (main (collab := sound) Cases.with_report))).
  { vm_compute. repeat (first [left; reflexivity | right]). }
  destruct (target_carries_the_command_line (collab := sound)
              Cases.with_report Cases.list_headers_target Hin)
    as (Hn & Hd & Hh).
  split; [exact Hn | split; [exact Hd | exact (Hh eq_refl)]].
Defined.
